(** * Karpenter: constraint resolution and the reallocation control loop

    A shallow embedding of

    - [pkg/apis/provisioning/v1alpha3/provisioner.go]: the [Constraints] of a
      provisioner and their resolution against a pod ([WithOverrides] and the
      four per-dimension getters), and
    - the reallocation controller's [Reconcile]: fetch the provisioner, then
      drive the lifecycle stages of [Utilization] in order.

    Go values are modelled as follows.  A [*string] or [*int64] is an
    [option]; [nil] is [None].  A slice [[]T] is a [slice T]: [None] is the
    nil slice and [Some l] a non-nil slice with elements [l], so that the
    [return nil] of the getters stays visible.  A [map[string]string] is a
    [gmap string string]; reading a nil map behaves as reading the empty map,
    so both are [∅].  [int64] and [time.Duration] are [Z]; the code under
    study only compares and stores them. *)

From Stdlib Require Import ZArith Lia.
From stdpp Require Import base option list strings gmap fin_maps.

Open Scope string_scope.

(** ** Go slices *)

Definition slice (A : Type) : Type := option (list A).

(** Go's builtin [len]: the nil slice has length zero. *)
Definition len {A : Type} (s : slice A) : nat :=
  match s with
  | None => 0
  | Some l => length l
  end.

(** The elements of a slice, the nil slice having none. *)
Definition elems {A : Type} (s : slice A) : list A :=
  match s with
  | None => []
  | Some l => l
  end.

(** ** k8s.io/api/core/v1: the parts a pod and a taint show to this code *)

Module v1.

Record Taint : Type := {
  Key : string;
  Value : string;
  Effect : string;
  TimeAdded : option Z;
}.

Record Toleration : Type := {
  TolerationKey : string;
  Operator : string;
  TolerationValue : string;
  TolerationEffect : string;
}.

Record PodSpec : Type := {
  NodeSelector : gmap string string;
  NodeName : string;
  Tolerations : list Toleration;
}.

Record Pod : Type := {
  Name : string;
  Namespace : string;
  PodLabels : gmap string string;
  Spec : PodSpec;
}.

End v1.

(** ** k8s.io/apimachinery/pkg/types *)

Module types.

Record NamespacedName : Type := {
  Namespace : string;
  Name : string;
}.

End types.

(** ** pkg/utils/functional *)

Module functional.

(** Modelled from the spec: [functional.UnionStringMaps] is not among the
    sources.  The specification describes it as the key-wise union of the
    provisioner-level labels and the workload-level selector keys, with
    workload-supplied keys taking precedence on collision; the workload's
    map is the second argument at its only call site with two maps.
    stdpp's [∪] on maps is left-biased, hence the swap. *)
Definition UnionStringMaps (a b : gmap string string) : gmap string string :=
  b ∪ a.

End functional.

(** ** pkg/apis/provisioning/v1alpha3 *)

Module v1alpha3.

Record Cluster : Type := {
  Endpoint : string;
  CABundle : option string;
  ClusterName : option string;
}.

Record Constraints : Type := {
  Taints : slice v1.Taint;
  Labels : gmap string string;
  Zones : slice string;
  InstanceTypes : slice string;
  Architecture : option string;
  OperatingSystem : option string;
}.

Record ProvisionerSpec : Type := {
  SpecCluster : Cluster;
  SpecConstraints : Constraints;
  TTLSecondsAfterEmpty : option Z;
  TTLSecondsUntilExpired : option Z;
}.

Definition ArchitectureAmd64 : string := "amd64".
Definition ArchitectureArm64 : string := "arm64".

Definition OperatingSystemLinux : string := "linux".

Definition ArchitectureLabelKey : string := "kubernetes.io/arch".
Definition OperatingSystemLabelKey : string := "kubernetes.io/os".
Definition ZoneLabelKey : string := "topology.kubernetes.io/zone".
Definition InstanceTypeLabelKey : string := "node.kubernetes.io/instance-type".

Definition DefaultProvisioner : types.NamespacedName :=
  {| types.Namespace := ""; types.Name := "default" |}.

(** The provisioner object: its name (from [metav1.ObjectMeta]) and its
    spec.  The status is never read by the code under study. *)
Record Provisioner : Type := {
  ObjectName : string;
  Spec : ProvisionerSpec;
}.

Definition getZones (c : Constraints) (pod : v1.Pod) : slice string :=
  (* Pod may override zone *)
  match v1.NodeSelector (v1.Spec pod) !! ZoneLabelKey with
  | Some zone => Some [zone]
  | None =>
      (* Default to provisioner constraints *)
      if negb (len (Zones c) =? 0)%nat then Zones c
      (* Otherwise unconstrained *)
      else None
  end.

Definition getInstanceTypes (c : Constraints) (pod : v1.Pod) : slice string :=
  (* Pod may override instance type *)
  match v1.NodeSelector (v1.Spec pod) !! InstanceTypeLabelKey with
  | Some instanceType => Some [instanceType]
  | None =>
      (* Default to provisioner constraints *)
      if negb (len (InstanceTypes c) =? 0)%nat then InstanceTypes c
      (* Otherwise unconstrained *)
      else None
  end.

Definition getArchitecture (c : Constraints) (pod : v1.Pod) : option string :=
  (* Pod may override arch *)
  match v1.NodeSelector (v1.Spec pod) !! ArchitectureLabelKey with
  | Some architecture => Some architecture
  | None =>
      (* Use constraints if defined *)
      match Architecture c with
      | Some a => Some a
      (* Default to amd64 *)
      | None => Some ArchitectureAmd64
      end
  end.

Definition getOperatingSystem (c : Constraints) (pod : v1.Pod) : option string :=
  (* Pod may override os *)
  match v1.NodeSelector (v1.Spec pod) !! OperatingSystemLabelKey with
  | Some operatingSystem => Some operatingSystem
  | None =>
      (* Use constraints if defined *)
      match OperatingSystem c with
      | Some o => Some o
      (* Default to linux *)
      | None => Some OperatingSystemLinux
      end
  end.

Definition WithOverrides (c : Constraints) (pod : v1.Pod) : Constraints :=
  {| Taints := Taints c;
     Labels := functional.UnionStringMaps (Labels c) (v1.NodeSelector (v1.Spec pod));
     Zones := getZones c pod;
     InstanceTypes := getInstanceTypes c pod;
     Architecture := getArchitecture c pod;
     OperatingSystem := getOperatingSystem c pod |}.

(** The four dimensions a pod can override through a well-known key of
    its node selector. *)
Inductive Dimension : Type :=
| DimZone
| DimInstanceType
| DimArchitecture
| DimOperatingSystem.

Definition wellKnownKey (d : Dimension) : string :=
  match d with
  | DimZone => ZoneLabelKey
  | DimInstanceType => InstanceTypeLabelKey
  | DimArchitecture => ArchitectureLabelKey
  | DimOperatingSystem => OperatingSystemLabelKey
  end.

(** The values a constraint set holds for a dimension: the elements of the
    allow-list for zones and instance types, the pointee (if any) for
    architecture and operating system. *)
Definition dimensionValues (d : Dimension) (c : Constraints) : list string :=
  match d with
  | DimZone => elems (Zones c)
  | DimInstanceType => elems (InstanceTypes c)
  | DimArchitecture => option_list (Architecture c)
  | DimOperatingSystem => option_list (OperatingSystem c)
  end.

(** [WithLabel] sets one label on its receiver and returns the receiver;
    the constraint set after the call is the value here. *)
Definition WithLabel (c : Constraints) (key value : string) : Constraints :=
  {| Taints := Taints c;
     Labels := functional.UnionStringMaps (Labels c) {[ key := value ]};
     Zones := Zones c;
     InstanceTypes := InstanceTypes c;
     Architecture := Architecture c;
     OperatingSystem := OperatingSystem c |}.

(** The value a getter falls back on when neither the pod nor the
    provisioner gives one: [&ArchitectureAmd64], [&OperatingSystemLinux],
    and none ([return nil]) for zones and instance types. *)
Definition builtinDefault (d : Dimension) : option string :=
  match d with
  | DimZone => None
  | DimInstanceType => None
  | DimArchitecture => Some ArchitectureAmd64
  | DimOperatingSystem => Some OperatingSystemLinux
  end.

End v1alpha3.

(** ** Go errors, as far as the controller builds and inspects them *)

Module errors.

(** [metav1.StatusReason] of an API status error. *)
Inductive StatusReason : Type :=
| StatusReasonUnknown
| StatusReasonNotFound
| StatusReasonConflict
| StatusReasonServiceUnavailable.

(** An [error] value: an API status error, a plain error ([errors.New]), or
    [fmt.Errorf(prefix + "%w", err)], which wraps [err] behind a message
    prefix. *)
Inductive error : Type :=
| StatusError (reason : StatusReason) (message : string)
| New (message : string)
| Errorf (prefix : string) (wrapped : error).

(** The [Error()] method: a wrapping error prints its prefix followed by
    the wrapped error's text. *)
Fixpoint Error (e : error) : string :=
  match e with
  | StatusError _ m => m
  | New m => m
  | Errorf prefix e' => prefix ++ Error e'
  end.

(** [errors.Unwrap] *)
Definition Unwrap (e : error) : option error :=
  match e with
  | Errorf _ e' => Some e'
  | _ => None
  end.

(** apimachinery's [ReasonForError]: the reason of the first status error
    in the chain of wrapped errors. *)
Fixpoint ReasonForError (e : error) : StatusReason :=
  match e with
  | StatusError r _ => r
  | New _ => StatusReasonUnknown
  | Errorf _ e' => ReasonForError e'
  end.

Definition IsNotFound (e : error) : bool :=
  match ReasonForError e with
  | StatusReasonNotFound => true
  | _ => false
  end.

End errors.

(** ** The [time] package: durations are counted in nanoseconds *)

Module time.

Definition Duration : Type := Z.

Definition Nanosecond : Duration := 1%Z.
Definition Microsecond : Duration := (1000 * Nanosecond)%Z.
Definition Millisecond : Duration := (1000 * Microsecond)%Z.
Definition Second : Duration := (1000 * Millisecond)%Z.

End time.

(** ** sigs.k8s.io/controller-runtime/pkg/reconcile *)

Module reconcile.

Record Request : Type := {
  NamespacedName : types.NamespacedName;
}.

Record Result : Type := {
  Requeue : bool;
  RequeueAfter : time.Duration;
}.

(** The zero value [reconcile.Result{}]. *)
Definition zero : Result := {| Requeue := false; RequeueAfter := 0%Z |}.

End reconcile.

(** ** The reallocation controller *)

Module reallocation.

Import errors.

(** The calls a reconcile cycle makes on its collaborators: the fetch of
    the provisioner and the four lifecycle stages of [Utilization]. *)
Inductive Stage : Type :=
| StageFetch
| StageTerminateFailedToJoin
| StageMarkUnderutilized
| StageClearUnderutilized
| StageTerminateExpired.

(** The order in which a full cycle goes through them. *)
Definition allStages : list Stage :=
  [StageFetch; StageTerminateFailedToJoin; StageMarkUnderutilized;
   StageClearUnderutilized; StageTerminateExpired].

Section Controller.

(** The cluster the controller acts on: the object store with its
    provisioners and nodes, the clock, whatever the collaborators read
    or write. *)
Context {World : Type}.

(** [client.Client], of which [Reconcile] uses [Get] on a provisioner:
    it reads the store and yields the object or an error. *)
Record Client : Type := {
  Get : types.NamespacedName -> World -> v1alpha3.Provisioner + error;
}.

(** The interface of [Utilization] towards the controller.  The methods
    are declared outside the sources at hand; each takes the provisioner,
    acts on the cluster and returns an error or nil. *)
Record Utilization : Type := {
  terminateFailedToJoin : v1alpha3.Provisioner -> World -> World * option error;
  markUnderutilized : v1alpha3.Provisioner -> World -> World * option error;
  clearUnderutilized : v1alpha3.Provisioner -> World -> World * option error;
  terminateExpired : v1alpha3.Provisioner -> World -> World * option error;
}.

(** [Controller]; the cloud provider field is not used by [Reconcile]. *)
Record Controller : Type := {
  CtlUtilization : Utilization;
  KubeClient : Client;
}.

(** What a cycle has done so far: the cluster as the calls left it, and
    the calls made, oldest first, each with the error it returned. *)
Record Run : Type := {
  cluster : World;
  calls : list (Stage * option error);
}.

(** What [Reconcile] returns. *)
Definition Outcome : Type := (reconcile.Result * option error)%type.

(** A computation of the controller threads the [Run] and either goes on
    with a value ([inl]) or has executed a [return] ([inr]). *)
Definition M (A : Type) : Type := Run -> Run * (A + Outcome).

Definition ret {A : Type} (a : A) : M A := fun r => (r, inl a).

Definition bind {A B : Type} (m : M A) (k : A -> M B) : M B :=
  fun r =>
    match m r with
    | (r', inl a) => k a r'
    | (r', inr o) => (r', inr o)
    end.

(** The [return] statement. *)
Definition return_ {A : Type} (res : reconcile.Result) (err : option error) : M A :=
  fun r => (r, inr (res, err)).

(** [if err != nil { ... }] *)
Definition ifErr (err : option error) (body : error -> M unit) : M unit :=
  match err with
  | Some e => body e
  | None => ret tt
  end.

(** The error of a fetch, nil when it yields the object. *)
Definition fetchError (got : v1alpha3.Provisioner + error) : option error :=
  match got with
  | inl _ => None
  | inr err => Some err
  end.

(** The fetch: a read of the store, recorded among the calls. *)
Definition fetch (c : Controller) (name : types.NamespacedName)
  : M (v1alpha3.Provisioner + error) :=
  fun r =>
    let got := Get (KubeClient c) name (cluster r) in
    ({| cluster := cluster r;
        calls := calls r ++ [(StageFetch, fetchError got)] |},
     inl got).

(** A lifecycle stage: it acts on the cluster and is recorded among the
    calls. *)
Definition stage (s : Stage)
  (f : v1alpha3.Provisioner -> World -> World * option error)
  (provisioner : v1alpha3.Provisioner) : M (option error) :=
  fun r =>
    let '(w, err) := f provisioner (cluster r) in
    ({| cluster := w; calls := calls r ++ [(s, err)] |}, inl err).

Declare Scope ctl_scope.
Delimit Scope ctl_scope with ctl.
Notation "x <- m ;; k" := (bind m (fun x => k))
  (at level 100, m at next level, k at level 200, right associativity)
  : ctl_scope.
Notation "m ;; k" := (bind m (fun _ => k))
  (at level 100, k at level 200, right associativity) : ctl_scope.
Local Open Scope ctl_scope.

(** [Reconcile], statement by statement.  The logger named "Reallocation"
    that the first line puts into the context has no bearing on the calls
    or on the result and is left out. *)
Definition ReconcileM (c : Controller) (req : reconcile.Request) : M Outcome :=
  (* 1. Retrieve provisioner from reconcile request *)
  got <- fetch c (reconcile.NamespacedName req) ;;
  match got with
  | inr err =>
      if IsNotFound err
      then return_ reconcile.zero None
      else return_ reconcile.zero (Some err)
  | inl provisioner =>
      (* 2. Delete any node that has been unable to join. *)
      err <- stage StageTerminateFailedToJoin
               (terminateFailedToJoin (CtlUtilization c)) provisioner ;;
      ifErr err (fun err =>
        return_ reconcile.zero
          (Some (Errorf "terminating nodes that failed to join, " err))) ;;
      (* Skip reconciliation if utilization ttl is not defined. *)
      match v1alpha3.TTLSecondsAfterEmpty (v1alpha3.Spec provisioner) with
      | None => return_ reconcile.zero None
      | Some _ =>
          (* 3. Set TTL on TTLable Nodes *)
          err <- stage StageMarkUnderutilized
                   (markUnderutilized (CtlUtilization c)) provisioner ;;
          ifErr err (fun err =>
            return_ reconcile.zero
              (Some (Errorf "adding ttl and underutilized label, " err))) ;;
          (* 4. Remove TTL from Utilized Nodes *)
          err <- stage StageClearUnderutilized
                   (clearUnderutilized (CtlUtilization c)) provisioner ;;
          ifErr err (fun err =>
            return_ reconcile.zero
              (Some (Errorf "removing ttl from node, " err))) ;;
          (* 5. Delete any node past its TTL *)
          err <- stage StageTerminateExpired
                   (terminateExpired (CtlUtilization c)) provisioner ;;
          ifErr err (fun err =>
            return_ reconcile.zero
              (Some (Errorf "marking nodes terminable, " err))) ;;
          return_ {| reconcile.Requeue := false;
                     reconcile.RequeueAfter := (5 * time.Second)%Z |} None
      end
  end.

(** One reconcile cycle on cluster [w]: the run it leaves and what it
    returns. *)
Definition Reconcile (c : Controller) (req : reconcile.Request) (w : World)
  : Run * Outcome :=
  match ReconcileM c req {| cluster := w; calls := [] |} with
  | (r, inl o) => (r, o)
  | (r, inr o) => (r, o)
  end.

(** The return statements of [Reconcile], one constructor each, with the
    calls that lead there. *)
Inductive Returns (c : Controller) (req : reconcile.Request) (w : World)
  : Run -> Outcome -> Prop :=
| ReturnsNotFound err :
    Get (KubeClient c) (reconcile.NamespacedName req) w = inr err ->
    IsNotFound err = true ->
    Returns c req w
      {| cluster := w; calls := [(StageFetch, Some err)] |}
      (reconcile.zero, None)
| ReturnsFetchError err :
    Get (KubeClient c) (reconcile.NamespacedName req) w = inr err ->
    IsNotFound err = false ->
    Returns c req w
      {| cluster := w; calls := [(StageFetch, Some err)] |}
      (reconcile.zero, Some err)
| ReturnsJoinError p w1 e :
    Get (KubeClient c) (reconcile.NamespacedName req) w = inl p ->
    terminateFailedToJoin (CtlUtilization c) p w = (w1, Some e) ->
    Returns c req w
      {| cluster := w1;
         calls := [(StageFetch, None); (StageTerminateFailedToJoin, Some e)] |}
      (reconcile.zero,
       Some (Errorf "terminating nodes that failed to join, " e))
| ReturnsNoTTL p w1 :
    Get (KubeClient c) (reconcile.NamespacedName req) w = inl p ->
    terminateFailedToJoin (CtlUtilization c) p w = (w1, None) ->
    v1alpha3.TTLSecondsAfterEmpty (v1alpha3.Spec p) = None ->
    Returns c req w
      {| cluster := w1;
         calls := [(StageFetch, None); (StageTerminateFailedToJoin, None)] |}
      (reconcile.zero, None)
| ReturnsMarkError p ttl w1 w2 e :
    Get (KubeClient c) (reconcile.NamespacedName req) w = inl p ->
    terminateFailedToJoin (CtlUtilization c) p w = (w1, None) ->
    v1alpha3.TTLSecondsAfterEmpty (v1alpha3.Spec p) = Some ttl ->
    markUnderutilized (CtlUtilization c) p w1 = (w2, Some e) ->
    Returns c req w
      {| cluster := w2;
         calls := [(StageFetch, None); (StageTerminateFailedToJoin, None);
                   (StageMarkUnderutilized, Some e)] |}
      (reconcile.zero, Some (Errorf "adding ttl and underutilized label, " e))
| ReturnsClearError p ttl w1 w2 w3 e :
    Get (KubeClient c) (reconcile.NamespacedName req) w = inl p ->
    terminateFailedToJoin (CtlUtilization c) p w = (w1, None) ->
    v1alpha3.TTLSecondsAfterEmpty (v1alpha3.Spec p) = Some ttl ->
    markUnderutilized (CtlUtilization c) p w1 = (w2, None) ->
    clearUnderutilized (CtlUtilization c) p w2 = (w3, Some e) ->
    Returns c req w
      {| cluster := w3;
         calls := [(StageFetch, None); (StageTerminateFailedToJoin, None);
                   (StageMarkUnderutilized, None);
                   (StageClearUnderutilized, Some e)] |}
      (reconcile.zero, Some (Errorf "removing ttl from node, " e))
| ReturnsExpireError p ttl w1 w2 w3 w4 e :
    Get (KubeClient c) (reconcile.NamespacedName req) w = inl p ->
    terminateFailedToJoin (CtlUtilization c) p w = (w1, None) ->
    v1alpha3.TTLSecondsAfterEmpty (v1alpha3.Spec p) = Some ttl ->
    markUnderutilized (CtlUtilization c) p w1 = (w2, None) ->
    clearUnderutilized (CtlUtilization c) p w2 = (w3, None) ->
    terminateExpired (CtlUtilization c) p w3 = (w4, Some e) ->
    Returns c req w
      {| cluster := w4;
         calls := [(StageFetch, None); (StageTerminateFailedToJoin, None);
                   (StageMarkUnderutilized, None);
                   (StageClearUnderutilized, None);
                   (StageTerminateExpired, Some e)] |}
      (reconcile.zero, Some (Errorf "marking nodes terminable, " e))
| ReturnsDone p ttl w1 w2 w3 w4 :
    Get (KubeClient c) (reconcile.NamespacedName req) w = inl p ->
    terminateFailedToJoin (CtlUtilization c) p w = (w1, None) ->
    v1alpha3.TTLSecondsAfterEmpty (v1alpha3.Spec p) = Some ttl ->
    markUnderutilized (CtlUtilization c) p w1 = (w2, None) ->
    clearUnderutilized (CtlUtilization c) p w2 = (w3, None) ->
    terminateExpired (CtlUtilization c) p w3 = (w4, None) ->
    Returns c req w
      {| cluster := w4;
         calls := [(StageFetch, None); (StageTerminateFailedToJoin, None);
                   (StageMarkUnderutilized, None);
                   (StageClearUnderutilized, None);
                   (StageTerminateExpired, None)] |}
      ({| reconcile.Requeue := false;
          reconcile.RequeueAfter := (5 * time.Second)%Z |}, None).

End Controller.

Arguments Client : clear implicits.
Arguments Utilization : clear implicits.
Arguments Controller : clear implicits.
Arguments Run : clear implicits.

(** The message each lifecycle stage's error is wrapped in. *)
Definition stageMessage (s : Stage) : option string :=
  match s with
  | StageFetch => None
  | StageTerminateFailedToJoin => Some "terminating nodes that failed to join, "
  | StageMarkUnderutilized => Some "adding ttl and underutilized label, "
  | StageClearUnderutilized => Some "removing ttl from node, "
  | StageTerminateExpired => Some "marking nodes terminable, "
  end.

(** The method of [Utilization] behind a recorded call; the fetch only
    reads the cluster. *)
Definition stageOf {World : Type} (u : Utilization World) (s : Stage)
  : v1alpha3.Provisioner -> World -> World * option errors.error :=
  match s with
  | StageFetch => fun _ w => (w, None)
  | StageTerminateFailedToJoin => terminateFailedToJoin u
  | StageMarkUnderutilized => markUnderutilized u
  | StageClearUnderutilized => clearUnderutilized u
  | StageTerminateExpired => terminateExpired u
  end.

(** The cluster after the given calls, made one after the other for the
    same provisioner, errors disregarded. *)
Definition replay {World : Type} (u : Utilization World)
  (provisioner : v1alpha3.Provisioner) (ss : list Stage) (w : World) : World :=
  foldl (fun w s => fst (stageOf u s provisioner w)) w ss.

End reallocation.

(** ** The node lifecycle tracker on a cluster of nodes *)

Module utilization.

Import errors.

(** Modelled from the spec: the node object as the lifecycle tracker reads
    and writes it (the [Node] type and the tracker are not among the
    sources).  [Owner] is the ownership label; [EmptySince] is the
    reclaim-after-empty marker, label and timestamp annotation set and
    cleared together; [Workloads] counts the non-system workloads on the
    node; [DeletionRequested] records that graceful termination was
    started.  Timestamps are in seconds. *)
Record Node : Type := {
  NodeName : string;
  Owner : option string;
  CreationTimestamp : Z;
  Ready : bool;
  Workloads : nat;
  EmptySince : option Z;
  DeletionRequested : bool;
}.

(** Modelled from the spec: the shared object store with its clock.
    [StoreAvailable] is false during an outage of the store, when every
    call on it fails; [Stuck] names the nodes whose deletion the store or
    the cloud provider rejects. *)
Record Cluster : Type := {
  Now : Z;
  StoreAvailable : bool;
  Provisioners : list v1alpha3.Provisioner;
  Nodes : list Node;
  Stuck : list string;
}.

(** Modelled from the spec: a write to the node objects leaves the rest of
    the store as it is. *)
Definition withNodes (w : Cluster) (ns : list Node) : Cluster :=
  {| Now := Now w; StoreAvailable := StoreAvailable w;
     Provisioners := Provisioners w; Nodes := ns; Stuck := Stuck w |}.

(** Modelled from the spec: the transient error of a store that cannot be
    reached. *)
Definition unavailable : error :=
  StatusError StatusReasonServiceUnavailable "the server is currently unable to handle the request".

(** Modelled from the spec: the fetch of a provisioner by name; a name the
    store does not hold is reported as not-found. *)
Definition get (name : types.NamespacedName) (w : Cluster)
  : v1alpha3.Provisioner + error :=
  if StoreAvailable w then
    match List.find (fun p => String.eqb (v1alpha3.ObjectName p) (types.Name name))
                    (Provisioners w) with
    | Some p => inl p
    | None => inr (StatusError StatusReasonNotFound "provisioner not found")
    end
  else inr unavailable.

(** Modelled from the spec: a node is owned by the provisioner its
    ownership label names. *)
Definition owned (provisioner : v1alpha3.Provisioner) (n : Node) : bool :=
  match Owner n with
  | Some o => String.eqb o (v1alpha3.ObjectName provisioner)
  | None => false
  end.

(** Modelled from the spec: a stage visits every owned node, goes on after
    a node's failure and reports the first error met. *)
Fixpoint forOwned (provisioner : v1alpha3.Provisioner)
  (f : Node -> Node * option error) (ns : list Node) : list Node * option error :=
  match ns with
  | [] => ([], None)
  | n :: rest =>
      let '(n', e) := if owned provisioner n then f n else (n, None) in
      let '(rest', e') := forOwned provisioner f rest in
      (n' :: rest', match e with Some _ => e | None => e' end)
  end.

(** Modelled from the spec: a stage first lists the nodes; during an outage
    the listing fails and nothing is written. *)
Definition onNodes (provisioner : v1alpha3.Provisioner)
  (f : Cluster -> Node -> Node * option error) (w : Cluster) : Cluster * option error :=
  if StoreAvailable w then
    let '(ns, e) := forOwned provisioner (f w) (Nodes w) in
    (withNodes w ns, e)
  else (w, Some unavailable).

(** Modelled from the spec: graceful termination starts by requesting the
    deletion of the node object. *)
Definition delete (w : Cluster) (n : Node) : Node * option error :=
  if bool_decide (NodeName n ∈ Stuck w)
  then (n, Some (New ("deleting node " ++ NodeName n)))
  else ({| NodeName := NodeName n; Owner := Owner n;
           CreationTimestamp := CreationTimestamp n; Ready := Ready n;
           Workloads := Workloads n; EmptySince := EmptySince n;
           DeletionRequested := true |}, None).

(** Modelled from the spec: the marker's label and annotation are written
    together. *)
Definition setMarker (n : Node) (m : option Z) : Node :=
  {| NodeName := NodeName n; Owner := Owner n;
     CreationTimestamp := CreationTimestamp n; Ready := Ready n;
     Workloads := Workloads n; EmptySince := m;
     DeletionRequested := DeletionRequested n |}.

Section Tracker.

(** Modelled from the spec: the join grace period, in seconds, a tunable
    constant whose value the specification leaves open. *)
Variable joinGracePeriod : Z.

(** Modelled from the spec: a node has failed to join if it has exceeded
    the join grace period without reaching the ready state; such nodes
    are deleted. *)
Definition terminateFailedToJoin (provisioner : v1alpha3.Provisioner)
  : Cluster -> Cluster * option error :=
  onNodes provisioner (fun w n =>
    if negb (Ready n) && (joinGracePeriod <? Now w - CreationTimestamp n)%Z
    then delete w n else (n, None)).

(** Modelled from the spec: every owned node with no non-system workload
    and no marker gets the marker with the current timestamp. *)
Definition markUnderutilized (provisioner : v1alpha3.Provisioner)
  : Cluster -> Cluster * option error :=
  onNodes provisioner (fun w n =>
    match Workloads n, EmptySince n with
    | O, None => (setMarker n (Some (Now w)), None)
    | _, _ => (n, None)
    end).

(** Modelled from the spec: every owned node carrying the marker that now
    has a non-system workload loses the marker. *)
Definition clearUnderutilized (provisioner : v1alpha3.Provisioner)
  : Cluster -> Cluster * option error :=
  onNodes provisioner (fun w n =>
    match Workloads n, EmptySince n with
    | S _, Some _ => (setMarker n None, None)
    | _, _ => (n, None)
    end).

(** Modelled from the spec: the marker is present and its age has reached
    the empty TTL. *)
Definition emptyTTLExpired (provisioner : v1alpha3.Provisioner) (w : Cluster)
  (n : Node) : bool :=
  match EmptySince n, v1alpha3.TTLSecondsAfterEmpty (v1alpha3.Spec provisioner) with
  | Some t, Some ttl => (ttl <=? Now w - t)%Z
  | _, _ => false
  end.

(** Modelled from the spec: the expiry TTL is defined and the node's age
    has reached it. *)
Definition ageTTLExpired (provisioner : v1alpha3.Provisioner) (w : Cluster)
  (n : Node) : bool :=
  match v1alpha3.TTLSecondsUntilExpired (v1alpha3.Spec provisioner) with
  | Some ttl => (ttl <=? Now w - CreationTimestamp n)%Z
  | None => false
  end.

(** Modelled from the spec: every owned node whose marker age has reached
    the empty TTL, or whose creation age has reached the expiry TTL when
    one is defined, is deleted. *)
Definition terminateExpired (provisioner : v1alpha3.Provisioner)
  : Cluster -> Cluster * option error :=
  onNodes provisioner (fun w n =>
    if emptyTTLExpired provisioner w n || ageTTLExpired provisioner w n
    then delete w n else (n, None)).

(** Modelled from the spec: the four operations the tracker offers to the
    controller. *)
Definition tracker : reallocation.Utilization Cluster :=
  {| reallocation.terminateFailedToJoin := terminateFailedToJoin;
     reallocation.markUnderutilized := markUnderutilized;
     reallocation.clearUnderutilized := clearUnderutilized;
     reallocation.terminateExpired := terminateExpired |}.

End Tracker.

(** Modelled from the spec: the client of the shared object store. *)
Definition client : reallocation.Client Cluster :=
  {| reallocation.Get := get |}.

End utilization.

(** ** Sample objects *)

Module samples.

Import v1alpha3.

Definition dedicated : v1.Taint :=
  {| v1.Key := "dedicated"; v1.Value := "batch";
     v1.Effect := "NoSchedule"; v1.TimeAdded := None |}.

(** A provisioner that constrains every dimension. *)
Definition strict : Constraints :=
  {| Taints := Some [dedicated];
     Labels := {[ "team" := "batch" ]};
     Zones := Some ["us-west-2a"; "us-west-2b"];
     InstanceTypes := Some ["m5.large"];
     Architecture := Some ArchitectureArm64;
     OperatingSystem := Some OperatingSystemLinux |}.

(** A provisioner that constrains nothing; its zones are an empty, non-nil
    slice. *)
Definition open : Constraints :=
  {| Taints := None;
     Labels := ∅;
     Zones := Some [];
     InstanceTypes := None;
     Architecture := None;
     OperatingSystem := None |}.

Definition podWith (selector : gmap string string) : v1.Pod :=
  {| v1.Name := "inflate"; v1.Namespace := "default";
     v1.PodLabels := {[ "app" := "inflate" ]};
     v1.Spec := {| v1.NodeSelector := selector; v1.NodeName := "";
                   v1.Tolerations := [] |} |}.

(** A pod that asks for a value in every dimension, none of them among the
    values [strict] configures. *)
Definition picky : v1.Pod :=
  podWith (<[ZoneLabelKey := "us-east-1c"]>
           (<[InstanceTypeLabelKey := "c5.xlarge"]>
            (<[ArchitectureLabelKey := "amd64"]>
             (<[OperatingSystemLabelKey := "windows"]> ∅)))).

(** A pod whose selector names no well-known key. *)
Definition plain : v1.Pod := podWith {[ "team" := "web" ]}.

Definition specOf (afterEmpty untilExpired : option Z) : ProvisionerSpec :=
  {| SpecCluster := {| Endpoint := "https://cluster.example";
                       CABundle := None; ClusterName := None |};
     SpecConstraints := strict;
     TTLSecondsAfterEmpty := afterEmpty;
     TTLSecondsUntilExpired := untilExpired |}.

(** A provisioner with an expiry TTL of 60 seconds and no empty TTL. *)
Definition expiring : Provisioner :=
  {| ObjectName := "default"; Spec := specOf None (Some 60%Z) |}.

(** A provisioner with an empty TTL of 30 seconds. *)
Definition reclaiming : Provisioner :=
  {| ObjectName := "default"; Spec := specOf (Some 30%Z) None |}.

Import utilization.

(** A ready node of the default provisioner, created at time 0, running
    one workload. *)
Definition busy : Node :=
  {| NodeName := "node-a"; Owner := Some "default"; CreationTimestamp := 0%Z;
     Ready := true; Workloads := 1; EmptySince := None;
     DeletionRequested := false |}.

(** A ready node of the default provisioner with no workload. *)
Definition idle : Node :=
  {| NodeName := "node-b"; Owner := Some "default"; CreationTimestamp := 0%Z;
     Ready := true; Workloads := 0; EmptySince := None;
     DeletionRequested := false |}.

(** A ready node of the default provisioner, marked empty at time 900. *)
Definition stale : Node :=
  {| NodeName := "node-c"; Owner := Some "default"; CreationTimestamp := 0%Z;
     Ready := true; Workloads := 0; EmptySince := Some 900%Z;
     DeletionRequested := false |}.

(** A node of the default provisioner that never became ready. *)
Definition lost : Node :=
  {| NodeName := "node-d"; Owner := Some "default"; CreationTimestamp := 0%Z;
     Ready := false; Workloads := 0; EmptySince := None;
     DeletionRequested := false |}.

(** A cluster at time 1000 holding provisioner [p] and the four nodes. *)
Definition clusterOf (p : Provisioner) (available : bool) (stuck : list string)
  : Cluster :=
  {| Now := 1000%Z; StoreAvailable := available; Provisioners := [p];
     Nodes := [busy; idle; stale; lost]; Stuck := stuck |}.

(** A cluster from which the provisioner has been deleted. *)
Definition orphaned : Cluster :=
  {| Now := 1000%Z; StoreAvailable := true; Provisioners := [];
     Nodes := [busy; idle; stale; lost]; Stuck := [] |}.

Definition request : reconcile.Request :=
  {| reconcile.NamespacedName := DefaultProvisioner |}.

(** A pod that asks for a zone only. *)
Definition zonal : v1.Pod := podWith {[ ZoneLabelKey := "us-west-2b" ]}.

(** A pod with the well-known selector entries of [picky], another name, a
    node name, a toleration and a further selector entry. *)
Definition noisy : v1.Pod :=
  {| v1.Name := "web"; v1.Namespace := "prod";
     v1.PodLabels := ∅;
     v1.Spec :=
       {| v1.NodeSelector :=
            <["team" := "web"]> (v1.NodeSelector (v1.Spec picky));
          v1.NodeName := "node-a";
          v1.Tolerations :=
            [{| v1.TolerationKey := "dedicated"; v1.Operator := "Exists";
                v1.TolerationValue := ""; v1.TolerationEffect := "NoSchedule" |}] |} |}.

(** The errors the sample cluster gives rise to. *)
Definition notFound : errors.error :=
  errors.StatusError errors.StatusReasonNotFound "provisioner not found".

Definition cannotDelete (name : string) : errors.error :=
  errors.New ("deleting node " ++ name).

(** The controller on such clusters, its tracker with a join grace period
    of five minutes. *)
Definition controller : reallocation.Controller Cluster :=
  {| reallocation.CtlUtilization := tracker 300%Z;
     reallocation.KubeClient := client |}.

End samples.

(** * Constraint resolution *)

Module resolution.

Import v1alpha3.

Lemma getZones_override c pod zone :
  v1.NodeSelector (v1.Spec pod) !! ZoneLabelKey = Some zone ->
  getZones c pod = Some [zone].
Proof. intros H. unfold getZones. by rewrite H. Qed.

Lemma getInstanceTypes_override c pod instanceType :
  v1.NodeSelector (v1.Spec pod) !! InstanceTypeLabelKey = Some instanceType ->
  getInstanceTypes c pod = Some [instanceType].
Proof. intros H. unfold getInstanceTypes. by rewrite H. Qed.

Lemma getArchitecture_override c pod architecture :
  v1.NodeSelector (v1.Spec pod) !! ArchitectureLabelKey = Some architecture ->
  getArchitecture c pod = Some architecture.
Proof. intros H. unfold getArchitecture. by rewrite H. Qed.

Lemma getOperatingSystem_override c pod operatingSystem :
  v1.NodeSelector (v1.Spec pod) !! OperatingSystemLabelKey = Some operatingSystem ->
  getOperatingSystem c pod = Some operatingSystem.
Proof. intros H. unfold getOperatingSystem. by rewrite H. Qed.

(** Under the union modelled from the specification, the pod's value is
    also the resolved label for the key. *)
Lemma WithOverrides_label c pod key value :
  v1.NodeSelector (v1.Spec pod) !! key = Some value ->
  Labels (WithOverrides c pod) !! key = Some value.
Proof.
  intros H. simpl. unfold functional.UnionStringMaps.
  by apply lookup_union_Some_l.
Qed.

(** C1. Precedence: for each of the four dimensions, a value the pod's
    node selector gives for the dimension's well-known key is the one and
    only value the resolved constraints hold for that dimension, whatever
    the provisioner configures. *)
Theorem WithOverrides_pod_value_wins (c : Constraints) (pod : v1.Pod)
    (d : Dimension) (value : string) :
  v1.NodeSelector (v1.Spec pod) !! wellKnownKey d = Some value ->
  dimensionValues d (WithOverrides c pod) = [value].
Proof.
  intros H. destruct d; simpl in *.
  - by rewrite (getZones_override c pod value H).
  - by rewrite (getInstanceTypes_override c pod value H).
  - by rewrite (getArchitecture_override c pod value H).
  - by rewrite (getOperatingSystem_override c pod value H).
Qed.

Lemma WithOverrides_pod_value_wins_witness :
  v1.NodeSelector (v1.Spec samples.picky) !! wellKnownKey DimOperatingSystem
    = Some "windows"
  /\ dimensionValues DimOperatingSystem (WithOverrides samples.strict samples.picky)
    = ["windows"].
Proof.
  split; [vm_compute; reflexivity|].
  apply (WithOverrides_pod_value_wins samples.strict samples.picky
           DimOperatingSystem "windows").
  vm_compute; reflexivity.
Defined.

Example picky_on_strict :
  let r := WithOverrides samples.strict samples.picky in
  Zones r = Some ["us-east-1c"] /\ InstanceTypes r = Some ["c5.xlarge"]
  /\ Architecture r = Some "amd64" /\ OperatingSystem r = Some "windows".
Proof. vm_compute. done. Qed.

Example plain_on_strict :
  let r := WithOverrides samples.strict samples.plain in
  Zones r = Some ["us-west-2a"; "us-west-2b"] /\ InstanceTypes r = Some ["m5.large"]
  /\ Architecture r = Some "arm64" /\ OperatingSystem r = Some "linux"
  /\ Labels r !! "team" = Some "web".
Proof. vm_compute. done. Qed.

(** C7. Default fallback: when the provisioner configures no zones, no
    instance types (nil or empty), no architecture and no operating
    system, and the pod's selector has none of the well-known keys, the
    resolved architecture is "amd64", the operating system "linux", and
    zones and instance types are nil. *)
Theorem WithOverrides_defaults (c : Constraints) (pod : v1.Pod) :
  len (Zones c) = 0 ->
  len (InstanceTypes c) = 0 ->
  Architecture c = None ->
  OperatingSystem c = None ->
  (forall d, v1.NodeSelector (v1.Spec pod) !! wellKnownKey d = None) ->
  Architecture (WithOverrides c pod) = Some "amd64"
  /\ OperatingSystem (WithOverrides c pod) = Some "linux"
  /\ Zones (WithOverrides c pod) = None
  /\ InstanceTypes (WithOverrides c pod) = None.
Proof.
  intros Hz Hi Ha Ho Hsel. simpl.
  pose proof (Hsel DimZone) as Hkz.
  pose proof (Hsel DimInstanceType) as Hki.
  pose proof (Hsel DimArchitecture) as Hka.
  pose proof (Hsel DimOperatingSystem) as Hko.
  simpl in Hkz, Hki, Hka, Hko.
  unfold getArchitecture, getOperatingSystem, getZones, getInstanceTypes.
  rewrite Hkz, Hki, Hka, Hko, Ha, Ho, Hz, Hi. simpl. done.
Qed.

Lemma WithOverrides_defaults_witness :
  len (Zones samples.open) = 0
  /\ Architecture (WithOverrides samples.open samples.plain) = Some "amd64"
  /\ OperatingSystem (WithOverrides samples.open samples.plain) = Some "linux"
  /\ Zones (WithOverrides samples.open samples.plain) = None
  /\ InstanceTypes (WithOverrides samples.open samples.plain) = None.
Proof.
  split; [reflexivity|].
  apply (WithOverrides_defaults samples.open samples.plain);
    try reflexivity.
  intros d; destruct d; vm_compute; reflexivity.
Defined.

(** C8. Taints: the resolved taints are the provisioner's taints, for
    every constraint set and every pod; hence any two pods resolve to the
    same taints. *)
Theorem WithOverrides_taints (c : Constraints) (pod : v1.Pod) :
  Taints (WithOverrides c pod) = Taints c
  /\ forall pod' : v1.Pod, Taints (WithOverrides c pod') = Taints (WithOverrides c pod).
Proof. split; [reflexivity | intros pod'; reflexivity]. Qed.

(** C9. A zone (an instance type) in the pod's selector replaces the
    provisioner's allow-list: the resolved list is the one-element list
    with the pod's value, for every configured list, whether or not the
    value is a member of it. *)
Theorem WithOverrides_selector_replaces_allow_list (c : Constraints) (pod : v1.Pod) :
  (forall zone,
      v1.NodeSelector (v1.Spec pod) !! ZoneLabelKey = Some zone ->
      Zones (WithOverrides c pod) = Some [zone])
  /\ (forall instanceType,
      v1.NodeSelector (v1.Spec pod) !! InstanceTypeLabelKey = Some instanceType ->
      InstanceTypes (WithOverrides c pod) = Some [instanceType]).
Proof.
  split; intros v H; simpl.
  - by apply getZones_override.
  - by apply getInstanceTypes_override.
Qed.

Lemma WithOverrides_selector_replaces_allow_list_witness :
  ("us-east-1c" ∉ elems (Zones samples.strict))
  /\ ("c5.xlarge" ∉ elems (InstanceTypes samples.strict))
  /\ Zones (WithOverrides samples.strict samples.picky) = Some ["us-east-1c"]
  /\ InstanceTypes (WithOverrides samples.strict samples.picky) = Some ["c5.xlarge"].
Proof.
  split; [|split].
  - refine (proj1 (bool_decide_eq_false _) _). vm_compute. reflexivity.
  - refine (proj1 (bool_decide_eq_false _) _). vm_compute. reflexivity.
  - destruct (WithOverrides_selector_replaces_allow_list samples.strict samples.picky)
      as [Hz Hi].
    split; [apply Hz | apply Hi]; vm_compute; reflexivity.
Defined.

End resolution.

(** * The reconcile cycle *)

Module cycle.

Import errors reallocation.

Create HintDb returns.
#[local] Hint Constructors Returns : returns.

(** Take the next branching point of [Reconcile] apart. *)
Ltac next_call :=
  match goal with
  | |- context [Get ?k ?n ?w] =>
      let H := fresh "HGet" in destruct (Get k n w) as [?p|?err] eqn:H
  | |- context [IsNotFound ?e] =>
      let H := fresh "HNotFound" in destruct (IsNotFound e) eqn:H
  | |- context [terminateFailedToJoin ?u ?p ?w] =>
      let H := fresh "HJoin" in
      destruct (terminateFailedToJoin u p w) as [?w [?e|]] eqn:H
  | |- context [v1alpha3.TTLSecondsAfterEmpty ?s] =>
      let H := fresh "HTTL" in
      destruct (v1alpha3.TTLSecondsAfterEmpty s) as [?ttl|] eqn:H
  | |- context [markUnderutilized ?u ?p ?w] =>
      let H := fresh "HMark" in
      destruct (markUnderutilized u p w) as [?w [?e|]] eqn:H
  | |- context [clearUnderutilized ?u ?p ?w] =>
      let H := fresh "HClear" in
      destruct (clearUnderutilized u p w) as [?w [?e|]] eqn:H
  | |- context [terminateExpired ?u ?p ?w] =>
      let H := fresh "HExpire" in
      destruct (terminateExpired u p w) as [?w [?e|]] eqn:H
  end.

Section Cycle.

Context {World : Type}.
Variable c : Controller World.
Variable req : reconcile.Request.
Variable w : World.

(** Every cycle ends at one of the return statements. *)
Lemma Reconcile_Returns :
  Returns c req w (fst (Reconcile c req w)) (snd (Reconcile c req w)).
Proof.
  unfold Reconcile, ReconcileM, bind, fetch, stage, ifErr, return_, ret.
  cbn [cluster calls app].
  repeat (next_call; cbn [cluster calls app fst snd fetchError]);
    eauto with returns.
Qed.

(** The return statement reached is determined by the cluster. *)
Lemma Returns_Reconcile run out :
  Returns c req w run out -> Reconcile c req w = (run, out).
Proof.
  intros H. unfold Reconcile, ReconcileM, bind, fetch, stage, ifErr, return_, ret.
  cbn [cluster calls app].
  destruct H;
    repeat match goal with
           | H : _ = _ |- _ => rewrite H; clear H; cbn [cluster calls app fetchError]
           end; reflexivity.
Qed.

(** C4. When the fetch reports not-found, [Reconcile] returns the zero
    result and a nil error; the fetch is the only call made, no lifecycle
    stage is invoked and the cluster is as it was. *)
Theorem Reconcile_provisioner_not_found (err : error) :
  Get (KubeClient c) (reconcile.NamespacedName req) w = inr err ->
  IsNotFound err = true ->
  Reconcile c req w
  = ({| cluster := w; calls := [(StageFetch, Some err)] |},
     (reconcile.zero, None)).
Proof. intros HGet HNotFound. apply Returns_Reconcile. eauto with returns. Qed.

(** C2, amended. When the provisioner is fetched, has no empty TTL, and
    the terminate-failed-to-join stage succeeds, [Reconcile] makes no
    further call (mark, clear and expire are skipped) and returns a nil
    error with the zero result: no revisit is scheduled. *)
Theorem Reconcile_no_empty_ttl (p : v1alpha3.Provisioner) (w1 : World) :
  Get (KubeClient c) (reconcile.NamespacedName req) w = inl p ->
  v1alpha3.TTLSecondsAfterEmpty (v1alpha3.Spec p) = None ->
  terminateFailedToJoin (CtlUtilization c) p w = (w1, None) ->
  Reconcile c req w
  = ({| cluster := w1;
        calls := [(StageFetch, None); (StageTerminateFailedToJoin, None)] |},
     (reconcile.zero, None)).
Proof. intros HGet HTTL HJoin. apply Returns_Reconcile. eauto with returns. Qed.

(** C3, amended. When the provisioner is fetched and has no empty TTL,
    then whatever its expiry TTL the cycle calls the fetch and the
    terminate-failed-to-join stage and nothing else: the expire stage
    does not run, and the cluster is left as terminate-failed-to-join
    left it. *)
Theorem Reconcile_no_empty_ttl_no_expiry (p : v1alpha3.Provisioner) :
  Get (KubeClient c) (reconcile.NamespacedName req) w = inl p ->
  v1alpha3.TTLSecondsAfterEmpty (v1alpha3.Spec p) = None ->
  cluster (fst (Reconcile c req w))
  = fst (terminateFailedToJoin (CtlUtilization c) p w)
  /\ map fst (calls (fst (Reconcile c req w)))
     = [StageFetch; StageTerminateFailedToJoin].
Proof.
  intros HGet HTTL.
  destruct (terminateFailedToJoin (CtlUtilization c) p w) as [w1 [e|]] eqn:HJoin.
  - rewrite (Returns_Reconcile _ _ (ReturnsJoinError c req w p w1 e HGet HJoin)).
    split; reflexivity.
  - rewrite (Returns_Reconcile _ _ (ReturnsNoTTL c req w p w1 HGet HJoin HTTL)).
    split; reflexivity.
Qed.

(** No two lifecycle stages share a message. *)
Lemma stageMessage_inj (s s' : Stage) (msg : string) :
  stageMessage s = Some msg -> stageMessage s' = Some msg -> s = s'.
Proof. destruct s, s'; simpl; congruence. Qed.

(** C5, amended. The stages of a cycle run in the fixed order fetch,
    terminate-failed-to-join, mark, clear, expire.  The fetch is always
    made, first.  When no call fails, the provisioner has been fetched and
    the cycle has run to its end: all five calls have been made if the
    empty TTL is defined, and the fetch and terminate-failed-to-join if it
    is not.  In every case the calls made are an initial part of the five,
    in this order, and a call that returns an error is the last call of the
    cycle, so every stage before it has run and none after it.  The error
    of a failing lifecycle stage is returned wrapped in that stage's
    message, and the messages tell the stages apart; the error of a failing
    fetch is returned as it is, or dropped when it is a not-found. *)
Theorem Reconcile_stage_order_and_errors :
  calls (fst (Reconcile c req w)) !! 0%nat
  = Some (StageFetch,
          fetchError (Get (KubeClient c) (reconcile.NamespacedName req) w))
  /\ (Forall (fun call => snd call = None) (calls (fst (Reconcile c req w))) ->
      exists p,
        Get (KubeClient c) (reconcile.NamespacedName req) w = inl p
        /\ map fst (calls (fst (Reconcile c req w)))
           = match v1alpha3.TTLSecondsAfterEmpty (v1alpha3.Spec p) with
             | Some _ => allStages
             | None => [StageFetch; StageTerminateFailedToJoin]
             end)
  /\ (exists rest, allStages = (map fst (calls (fst (Reconcile c req w))) ++ rest)%list)
  /\ (forall i s e,
        calls (fst (Reconcile c req w)) !! i = Some (s, Some e) ->
        S i = length (calls (fst (Reconcile c req w))))
  /\ (forall s e,
        last (calls (fst (Reconcile c req w))) = Some (s, Some e) ->
        s <> StageFetch ->
        exists msg,
          stageMessage s = Some msg
          /\ snd (snd (Reconcile c req w)) = Some (Errorf msg e))
  /\ (forall s s' msg,
        stageMessage s = Some msg -> stageMessage s' = Some msg -> s = s')
  /\ (forall e,
        last (calls (fst (Reconcile c req w))) = Some (StageFetch, Some e) ->
        snd (snd (Reconcile c req w)) = if IsNotFound e then None else Some e).
Proof.
  pose proof Reconcile_Returns as R.
  destruct R;
    match goal with
    | H : Get _ _ _ = _ |- _ => rewrite H
    end;
    cbn [cluster calls fst snd map app length last fetchError];
    (split; [reflexivity|]);
    (split; [intros Hnone;
             repeat (apply Forall_cons in Hnone as [? Hnone]);
             simpl in *;
             first
               [ discriminate
               | eexists; split; [reflexivity|];
                 match goal with
                 | H : v1alpha3.TTLSecondsAfterEmpty _ = _ |- _ => rewrite H
                 end; reflexivity ]|]);
    (split; [eexists; reflexivity|]);
    (split; [intros i s e0 Hi;
             destruct i as [|[|[|[|[|i]]]]]; simpl in Hi;
             try discriminate; inversion Hi; subst; reflexivity|]);
    (split; [intros s e0 Hl Hs; inversion Hl; subst;
             try congruence; eexists; split; reflexivity|]);
    (split; [apply stageMessage_inj|]);
    intros e0 Hl; inversion Hl; subst;
    repeat match goal with H : IsNotFound _ = _ |- _ => rewrite H end;
    reflexivity.
Qed.

(** C6. A cycle that has gone through all five calls, each without
    error, returns a nil error and asks for a revisit after 5 seconds
    (5 000 000 000 nanoseconds), with no further condition. *)
Theorem Reconcile_requeue_after_full_cycle :
  calls (fst (Reconcile c req w)) = map (fun s => (s, None)) allStages ->
  snd (Reconcile c req w)
  = ({| reconcile.Requeue := false;
        reconcile.RequeueAfter := (5 * time.Second)%Z |}, None)
  /\ (5 * time.Second = 5000000000)%Z.
Proof.
  intros Hcalls. split; [|reflexivity].
  pose proof Reconcile_Returns as R.
  destruct R; cbn [calls fst snd] in *; try discriminate.
  reflexivity.
Qed.

(** C10. [Reconcile] never returns an error together with a requeue
    delay: with an error the result is the zero result, and a non-zero
    [RequeueAfter] comes with a nil error after all five calls have been
    made without error. *)
Theorem Reconcile_error_excludes_requeue :
  (forall e,
      snd (snd (Reconcile c req w)) = Some e ->
      fst (snd (Reconcile c req w)) = reconcile.zero)
  /\ (reconcile.RequeueAfter (fst (snd (Reconcile c req w))) <> 0%Z ->
      snd (snd (Reconcile c req w)) = None
      /\ calls (fst (Reconcile c req w)) = map (fun s => (s, None)) allStages).
Proof.
  pose proof Reconcile_Returns as R.
  destruct R; simpl;
    (split;
     [ intros e0 He; first [reflexivity | discriminate]
     | intros Hdelay;
       first [exfalso; apply Hdelay; reflexivity | split; reflexivity] ]).
Qed.

End Cycle.

End cycle.

(** * The cycle on the sample cluster *)

Module scenarios.

Import errors reallocation utilization.
Import samples.

Lemma Reconcile_provisioner_not_found_witness :
  IsNotFound notFound = true
  /\ Reconcile controller request orphaned
     = ({| cluster := orphaned; calls := [(StageFetch, Some notFound)] |},
        (reconcile.zero, None)).
Proof.
  split; [reflexivity|].
  apply (cycle.Reconcile_provisioner_not_found controller request orphaned notFound);
    vm_compute; reflexivity.
Defined.

(** C2 as stated fails: the provisioner is fetched, has no empty TTL, the
    terminate-failed-to-join stage succeeds, and yet the result carries no
    revisit interval. *)
Lemma no_empty_ttl_revisit_counterexample :
  Get (KubeClient controller) (reconcile.NamespacedName request)
      (clusterOf expiring true []) = inl expiring
  /\ v1alpha3.TTLSecondsAfterEmpty (v1alpha3.Spec expiring) = None
  /\ snd (reallocation.terminateFailedToJoin (CtlUtilization controller) expiring
            (clusterOf expiring true [])) = None
  /\ ~ (exists res,
         snd (Reconcile controller request (clusterOf expiring true []))
         = (res, None)
         /\ (0 < reconcile.RequeueAfter res)%Z).
Proof.
  repeat split; try (vm_compute; reflexivity).
  intros [res [Hres Hdelay]].
  vm_compute in Hres. inversion Hres; subst res. simpl in Hdelay. lia.
Qed.

Lemma Reconcile_no_empty_ttl_witness :
  v1alpha3.TTLSecondsAfterEmpty (v1alpha3.Spec expiring) = None
  /\ Reconcile controller request (clusterOf expiring true [])
     = ({| cluster := fst (reallocation.terminateFailedToJoin (CtlUtilization controller)
                             expiring (clusterOf expiring true []));
           calls := [(StageFetch, None); (StageTerminateFailedToJoin, None)] |},
        (reconcile.zero, None)).
Proof.
  split; [reflexivity|].
  apply (cycle.Reconcile_no_empty_ttl controller request
           (clusterOf expiring true []) expiring);
    vm_compute; reflexivity.
Defined.

(** C3 as stated fails: the provisioner has no empty TTL and an expiry TTL
    of 60 seconds; node-a is owned, was created 1000 seconds ago, and is
    not deleted by the cycle. *)
Lemma age_expiry_counterexample :
  Get (KubeClient controller) (reconcile.NamespacedName request)
      (clusterOf expiring true []) = inl expiring
  /\ v1alpha3.TTLSecondsAfterEmpty (v1alpha3.Spec expiring) = None
  /\ v1alpha3.TTLSecondsUntilExpired (v1alpha3.Spec expiring) = Some 60%Z
  /\ ~ (forall n : Node,
         n ∈ Nodes (cluster (fst (Reconcile controller request
                                    (clusterOf expiring true [])))) ->
         owned expiring n = true ->
         (60 < Now (clusterOf expiring true []) - CreationTimestamp n)%Z ->
         DeletionRequested n = true).
Proof.
  repeat split; try (vm_compute; reflexivity).
  intros Hall.
  assert (Hbusy : DeletionRequested busy = true).
  { apply Hall.
    - vm_compute. constructor.
    - vm_compute. reflexivity.
    - vm_compute. reflexivity. }
  discriminate Hbusy.
Qed.

Lemma Reconcile_no_empty_ttl_no_expiry_witness :
  v1alpha3.TTLSecondsUntilExpired (v1alpha3.Spec expiring) = Some 60%Z
  /\ cluster (fst (Reconcile controller request (clusterOf expiring true [])))
     = fst (reallocation.terminateFailedToJoin (CtlUtilization controller) expiring
              (clusterOf expiring true []))
  /\ map fst (calls (fst (Reconcile controller request
                            (clusterOf expiring true []))))
     = [StageFetch; StageTerminateFailedToJoin].
Proof.
  split; [reflexivity|].
  apply (cycle.Reconcile_no_empty_ttl_no_expiry controller request
           (clusterOf expiring true []) expiring);
    vm_compute; reflexivity.
Defined.

(** C5 as stated fails at the fetch: during an outage of the store the
    fetch is the call that fails, and its error is returned as it is, not
    wrapped in any message. *)
Lemma fetch_error_wrapped_counterexample :
  last (calls (fst (Reconcile controller request (clusterOf reclaiming false []))))
  = Some (StageFetch, Some unavailable)
  /\ ~ (exists msg,
         snd (snd (Reconcile controller request (clusterOf reclaiming false [])))
         = Some (Errorf msg unavailable)).
Proof.
  split; [vm_compute; reflexivity|].
  intros [msg Hmsg]. vm_compute in Hmsg. discriminate Hmsg.
Qed.

Lemma Reconcile_stage_order_and_errors_witness :
  (last (calls (fst (Reconcile controller request
                       (clusterOf reclaiming true ["node-c"]))))
   = Some (StageTerminateExpired, Some (cannotDelete "node-c"))
   /\ exists msg,
        stageMessage StageTerminateExpired = Some msg
        /\ snd (snd (Reconcile controller request
                       (clusterOf reclaiming true ["node-c"])))
           = Some (Errorf msg (cannotDelete "node-c")))
  /\ (Forall (fun call => snd call = None)
        (calls (fst (Reconcile controller request (clusterOf reclaiming true []))))
      /\ map fst (calls (fst (Reconcile controller request
                                (clusterOf reclaiming true []))))
         = allStages).
Proof.
  split.
  - split; [vm_compute; reflexivity|].
    destruct (cycle.Reconcile_stage_order_and_errors controller request
                (clusterOf reclaiming true ["node-c"]))
      as (_ & _ & _ & _ & Hwrap & _).
    apply Hwrap; [vm_compute; reflexivity | discriminate].
  - assert (Hnone : Forall (fun call : Stage * option error => snd call = None)
                      (calls (fst (Reconcile controller request
                                     (clusterOf reclaiming true []))))).
    { vm_compute. repeat constructor. }
    split; [exact Hnone|].
    destruct (cycle.Reconcile_stage_order_and_errors controller request
                (clusterOf reclaiming true []))
      as (_ & Hrun & _).
    destruct (Hrun Hnone) as (p & HGet & Hcalls).
    vm_compute in HGet. injection HGet as <-.
    exact Hcalls.
Defined.

Lemma Reconcile_requeue_after_full_cycle_witness :
  calls (fst (Reconcile controller request (clusterOf reclaiming true [])))
  = map (fun s => (s, None)) allStages
  /\ snd (Reconcile controller request (clusterOf reclaiming true []))
     = ({| reconcile.Requeue := false;
           reconcile.RequeueAfter := (5 * time.Second)%Z |}, None)
  /\ (5 * time.Second = 5000000000)%Z.
Proof.
  split; [vm_compute; reflexivity|].
  apply (cycle.Reconcile_requeue_after_full_cycle controller request
           (clusterOf reclaiming true [])).
  vm_compute; reflexivity.
Defined.

Lemma Reconcile_error_excludes_requeue_witness :
  snd (snd (Reconcile controller request (clusterOf reclaiming true ["node-d"])))
  = Some (Errorf "terminating nodes that failed to join, " (cannotDelete "node-d"))
  /\ fst (snd (Reconcile controller request (clusterOf reclaiming true ["node-d"])))
     = reconcile.zero.
Proof.
  split; [vm_compute; reflexivity|].
  destruct (cycle.Reconcile_error_excludes_requeue controller request
              (clusterOf reclaiming true ["node-d"])) as [Hzero _].
  apply (Hzero (Errorf "terminating nodes that failed to join, "
                  (cannotDelete "node-d"))).
  vm_compute; reflexivity.
Defined.

(** The text of a wrapped error starts with the stage's message. *)
Example wrapped_error_text :
  Error (Errorf "marking nodes terminable, " (cannotDelete "node-c"))
  = "marking nodes terminable, deleting node node-c".
Proof. reflexivity. Qed.

(** The expire stage, where it runs, does delete by age: with both TTLs
    defined every owned node of the sample cluster is past the expiry TTL
    and has its deletion requested. *)
Example expiry_when_empty_ttl_defined :
  let p := {| v1alpha3.ObjectName := "default";
              v1alpha3.Spec := specOf (Some 30%Z) (Some 60%Z) |} in
  map DeletionRequested
    (Nodes (cluster (fst (Reconcile controller request (clusterOf p true [])))))
  = [true; true; true; true].
Proof. vm_compute. reflexivity. Qed.

End scenarios.

(** * Further laws of constraint resolution *)

Module precedence.

Import v1alpha3.

(** A getter for an allow-list returns what the provisioner has when that
    is not empty, and nil otherwise. *)
Lemma allow_list_fallback (configured : slice string) :
  elems (if negb (len configured =? 0)%nat then configured else None)
  = elems configured.
Proof. destruct configured as [[|x l]|]; reflexivity. Qed.

Lemma allow_list_never_empty (configured : slice string) :
  (if negb (len configured =? 0)%nat then configured else None) <> Some [].
Proof. destruct configured as [[|x l]|]; simpl; congruence. Qed.

Lemma getArchitecture_defined (c : Constraints) (pod : v1.Pod) :
  exists a, getArchitecture c pod = Some a.
Proof.
  unfold getArchitecture.
  destruct (v1.NodeSelector (v1.Spec pod) !! ArchitectureLabelKey);
    [|destruct (Architecture c)]; eexists; reflexivity.
Qed.

Lemma getOperatingSystem_defined (c : Constraints) (pod : v1.Pod) :
  exists o, getOperatingSystem c pod = Some o.
Proof.
  unfold getOperatingSystem.
  destruct (v1.NodeSelector (v1.Spec pod) !! OperatingSystemLabelKey);
    [|destruct (OperatingSystem c)]; eexists; reflexivity.
Qed.

(** X1. Without an entry for the dimension's key in the pod's selector, a
    dimension for which the provisioner configures at least one value
    resolves to exactly what the provisioner configures. *)
Theorem WithOverrides_provisioner_fallback (c : Constraints) (pod : v1.Pod)
    (d : Dimension) :
  v1.NodeSelector (v1.Spec pod) !! wellKnownKey d = None ->
  dimensionValues d c <> [] ->
  dimensionValues d (WithOverrides c pod) = dimensionValues d c.
Proof.
  intros Hsel Hconf. destruct d; simpl in *.
  - unfold getZones. rewrite Hsel. apply allow_list_fallback.
  - unfold getInstanceTypes. rewrite Hsel. apply allow_list_fallback.
  - unfold getArchitecture. rewrite Hsel.
    destruct (Architecture c); [reflexivity | contradiction].
  - unfold getOperatingSystem. rewrite Hsel.
    destruct (OperatingSystem c); [reflexivity | contradiction].
Qed.

Lemma WithOverrides_provisioner_fallback_witness :
  v1.NodeSelector (v1.Spec samples.zonal) !! wellKnownKey DimArchitecture = None
  /\ dimensionValues DimArchitecture (WithOverrides samples.strict samples.zonal)
     = ["arm64"].
Proof.
  split; [vm_compute; reflexivity|].
  apply (WithOverrides_provisioner_fallback samples.strict samples.zonal
           DimArchitecture).
  - vm_compute; reflexivity.
  - discriminate.
Defined.

(** X2. The resolved architecture and operating system are never nil, whatever
    the provisioner and the pod say. *)
Theorem WithOverrides_architecture_os_defined (c : Constraints) (pod : v1.Pod) :
  is_Some (Architecture (WithOverrides c pod))
  /\ is_Some (OperatingSystem (WithOverrides c pod)).
Proof.
  split; simpl.
  - apply getArchitecture_defined.
  - apply getOperatingSystem_defined.
Qed.

(** X3. The resolved zones and instance types are never an empty non-nil
    slice: a configured empty slice comes out as nil. *)
Theorem WithOverrides_lists_not_empty (c : Constraints) (pod : v1.Pod) :
  Zones (WithOverrides c pod) <> Some []
  /\ InstanceTypes (WithOverrides c pod) <> Some [].
Proof.
  split; simpl.
  - unfold getZones.
    destruct (v1.NodeSelector (v1.Spec pod) !! ZoneLabelKey);
      [congruence | apply allow_list_never_empty].
  - unfold getInstanceTypes.
    destruct (v1.NodeSelector (v1.Spec pod) !! InstanceTypeLabelKey);
      [congruence | apply allow_list_never_empty].
Qed.

(** X4. Resolution invents no value: whatever the result holds for a dimension
    is the pod's selector value for the dimension's key, a value the
    provisioner configures for the dimension, or the built-in default. *)
Theorem WithOverrides_value_provenance (c : Constraints) (pod : v1.Pod)
    (d : Dimension) (value : string) :
  value ∈ dimensionValues d (WithOverrides c pod) ->
  v1.NodeSelector (v1.Spec pod) !! wellKnownKey d = Some value
  \/ value ∈ dimensionValues d c
  \/ builtinDefault d = Some value.
Proof.
  intros Hin. destruct d; simpl in *.
  - unfold getZones in Hin.
    destruct (v1.NodeSelector (v1.Spec pod) !! ZoneLabelKey) as [zone|].
    + left. apply list_elem_of_singleton in Hin. by subst.
    + right; left. by rewrite allow_list_fallback in Hin.
  - unfold getInstanceTypes in Hin.
    destruct (v1.NodeSelector (v1.Spec pod) !! InstanceTypeLabelKey) as [it|].
    + left. apply list_elem_of_singleton in Hin. by subst.
    + right; left. by rewrite allow_list_fallback in Hin.
  - unfold getArchitecture in Hin.
    destruct (v1.NodeSelector (v1.Spec pod) !! ArchitectureLabelKey) as [a|].
    + left. apply list_elem_of_singleton in Hin. by subst.
    + destruct (Architecture c) as [a|]; simpl in *.
      * right; left. done.
      * right; right. apply list_elem_of_singleton in Hin. by subst.
  - unfold getOperatingSystem in Hin.
    destruct (v1.NodeSelector (v1.Spec pod) !! OperatingSystemLabelKey) as [o|].
    + left. apply list_elem_of_singleton in Hin. by subst.
    + destruct (OperatingSystem c) as [o|]; simpl in *.
      * right; left. done.
      * right; right. apply list_elem_of_singleton in Hin. by subst.
Qed.

Lemma WithOverrides_value_provenance_witness :
  ("linux" ∈ dimensionValues DimOperatingSystem
               (WithOverrides samples.open samples.zonal))
  /\ (v1.NodeSelector (v1.Spec samples.zonal) !! wellKnownKey DimOperatingSystem
      = Some "linux"
      \/ "linux" ∈ dimensionValues DimOperatingSystem samples.open
      \/ builtinDefault DimOperatingSystem = Some "linux").
Proof.
  assert (Hin : "linux" ∈ dimensionValues DimOperatingSystem
                            (WithOverrides samples.open samples.zonal)).
  { vm_compute. constructor. }
  split; [exact Hin|].
  exact (WithOverrides_value_provenance samples.open samples.zonal
           DimOperatingSystem "linux" Hin).
Defined.

(** X5. Resolving the result against a second pod: in each dimension the
    second pod's selector value wins where it has one, and the first
    resolution stands where it has none. *)
Theorem WithOverrides_twice (c : Constraints) (pod1 pod2 : v1.Pod) (d : Dimension) :
  dimensionValues d (WithOverrides (WithOverrides c pod1) pod2)
  = match v1.NodeSelector (v1.Spec pod2) !! wellKnownKey d with
    | Some value => [value]
    | None => dimensionValues d (WithOverrides c pod1)
    end.
Proof.
  destruct d; simpl.
  - unfold getZones at 1.
    destruct (v1.NodeSelector (v1.Spec pod2) !! ZoneLabelKey);
      [reflexivity | apply allow_list_fallback].
  - unfold getInstanceTypes at 1.
    destruct (v1.NodeSelector (v1.Spec pod2) !! InstanceTypeLabelKey);
      [reflexivity | apply allow_list_fallback].
  - unfold getArchitecture at 1.
    destruct (v1.NodeSelector (v1.Spec pod2) !! ArchitectureLabelKey);
      [reflexivity|].
    cbn [Architecture WithOverrides].
    destruct (getArchitecture_defined c pod1) as [a Ha].
    rewrite Ha. reflexivity.
  - unfold getOperatingSystem at 1.
    destruct (v1.NodeSelector (v1.Spec pod2) !! OperatingSystemLabelKey);
      [reflexivity|].
    cbn [OperatingSystem WithOverrides].
    destruct (getOperatingSystem_defined c pod1) as [o Ho].
    rewrite Ho. reflexivity.
Qed.

(** X6. All four getters follow one order, first match wins: the pod's
    selector value for the dimension's key; else what the provisioner
    configures, if it configures any value; else the built-in default, which
    is a value for architecture and operating system and nothing for zones
    and instance types. *)
Theorem WithOverrides_first_match (c : Constraints) (pod : v1.Pod) (d : Dimension) :
  dimensionValues d (WithOverrides c pod)
  = match v1.NodeSelector (v1.Spec pod) !! wellKnownKey d with
    | Some value => [value]
    | None =>
        match dimensionValues d c with
        | [] => option_list (builtinDefault d)
        | configured => configured
        end
    end.
Proof.
  destruct d; simpl.
  - unfold getZones.
    destruct (v1.NodeSelector (v1.Spec pod) !! ZoneLabelKey); [reflexivity|].
    destruct (Zones c) as [[|z l]|]; reflexivity.
  - unfold getInstanceTypes.
    destruct (v1.NodeSelector (v1.Spec pod) !! InstanceTypeLabelKey); [reflexivity|].
    destruct (InstanceTypes c) as [[|t l]|]; reflexivity.
  - unfold getArchitecture.
    destruct (v1.NodeSelector (v1.Spec pod) !! ArchitectureLabelKey); [reflexivity|].
    destruct (Architecture c); reflexivity.
  - unfold getOperatingSystem.
    destruct (v1.NodeSelector (v1.Spec pod) !! OperatingSystemLabelKey); [reflexivity|].
    destruct (OperatingSystem c); reflexivity.
Qed.

(** X7. Resolving the result against the same pod again changes no taint and
    no dimension. *)
Theorem WithOverrides_idempotent (c : Constraints) (pod : v1.Pod) :
  Taints (WithOverrides (WithOverrides c pod) pod) = Taints (WithOverrides c pod)
  /\ Zones (WithOverrides (WithOverrides c pod) pod) = Zones (WithOverrides c pod)
  /\ InstanceTypes (WithOverrides (WithOverrides c pod) pod)
     = InstanceTypes (WithOverrides c pod)
  /\ Architecture (WithOverrides (WithOverrides c pod) pod)
     = Architecture (WithOverrides c pod)
  /\ OperatingSystem (WithOverrides (WithOverrides c pod) pod)
     = OperatingSystem (WithOverrides c pod).
Proof.
  split; [reflexivity|]. simpl.
  split; [|split; [|split]].
  - unfold getZones at 1.
    destruct (v1.NodeSelector (v1.Spec pod) !! ZoneLabelKey) eqn:Hsel.
    + unfold getZones. by rewrite Hsel.
    + cbn [Zones WithOverrides]. unfold getZones. rewrite Hsel.
      destruct (Zones c) as [[|z l]|]; reflexivity.
  - unfold getInstanceTypes at 1.
    destruct (v1.NodeSelector (v1.Spec pod) !! InstanceTypeLabelKey) eqn:Hsel.
    + unfold getInstanceTypes. by rewrite Hsel.
    + cbn [InstanceTypes WithOverrides]. unfold getInstanceTypes. rewrite Hsel.
      destruct (InstanceTypes c) as [[|t l]|]; reflexivity.
  - unfold getArchitecture at 1.
    destruct (v1.NodeSelector (v1.Spec pod) !! ArchitectureLabelKey) eqn:Hsel.
    + unfold getArchitecture. by rewrite Hsel.
    + cbn [Architecture WithOverrides]. unfold getArchitecture. rewrite Hsel.
      destruct (Architecture c); reflexivity.
  - unfold getOperatingSystem at 1.
    destruct (v1.NodeSelector (v1.Spec pod) !! OperatingSystemLabelKey) eqn:Hsel.
    + unfold getOperatingSystem. by rewrite Hsel.
    + cbn [OperatingSystem WithOverrides]. unfold getOperatingSystem. rewrite Hsel.
      destruct (OperatingSystem c); reflexivity.
Qed.

(** X8. Only the four well-known entries of the pod's selector count: two pods
    that agree on them resolve to the same taints, zones, instance types,
    architecture and operating system, whatever else tells them apart. *)
Theorem WithOverrides_selector_frame (c : Constraints) (pod pod' : v1.Pod) :
  (forall d, v1.NodeSelector (v1.Spec pod) !! wellKnownKey d
             = v1.NodeSelector (v1.Spec pod') !! wellKnownKey d) ->
  Taints (WithOverrides c pod) = Taints (WithOverrides c pod')
  /\ Zones (WithOverrides c pod) = Zones (WithOverrides c pod')
  /\ InstanceTypes (WithOverrides c pod) = InstanceTypes (WithOverrides c pod')
  /\ Architecture (WithOverrides c pod) = Architecture (WithOverrides c pod')
  /\ OperatingSystem (WithOverrides c pod) = OperatingSystem (WithOverrides c pod').
Proof.
  intros Hagree.
  pose proof (Hagree DimZone) as Hz.
  pose proof (Hagree DimInstanceType) as Hi.
  pose proof (Hagree DimArchitecture) as Ha.
  pose proof (Hagree DimOperatingSystem) as Ho.
  simpl in Hz, Hi, Ha, Ho. simpl.
  unfold getZones, getInstanceTypes, getArchitecture, getOperatingSystem.
  rewrite Hz, Hi, Ha, Ho. repeat split.
Qed.

Lemma WithOverrides_selector_frame_witness :
  samples.noisy <> samples.picky
  /\ Zones (WithOverrides samples.strict samples.noisy)
     = Zones (WithOverrides samples.strict samples.picky)
  /\ Architecture (WithOverrides samples.strict samples.noisy)
     = Architecture (WithOverrides samples.strict samples.picky).
Proof.
  split; [intros Heq; apply (f_equal v1.Name) in Heq; discriminate Heq|].
  destruct (WithOverrides_selector_frame samples.strict samples.noisy samples.picky)
    as (_ & Hz & _ & Ha & _).
  - intros d; destruct d; vm_compute; reflexivity.
  - split; [exact Hz | exact Ha].
Defined.

(** X9. A label set on the provisioner with [WithLabel], be it under a
    well-known key, constrains no dimension: the resolved taints, zones,
    instance types, architecture and operating system are those resolved
    without the label, and the constraint set keeps all its other fields. *)
Theorem WithLabel_constrains_nothing (c : Constraints) (key value : string)
    (pod : v1.Pod) :
  (Taints (WithLabel c key value) = Taints c
   /\ Zones (WithLabel c key value) = Zones c
   /\ InstanceTypes (WithLabel c key value) = InstanceTypes c
   /\ Architecture (WithLabel c key value) = Architecture c
   /\ OperatingSystem (WithLabel c key value) = OperatingSystem c)
  /\ (forall d, dimensionValues d (WithOverrides (WithLabel c key value) pod)
               = dimensionValues d (WithOverrides c pod))
  /\ Taints (WithOverrides (WithLabel c key value) pod)
     = Taints (WithOverrides c pod).
Proof.
  split; [repeat split|]. split; [|reflexivity].
  intros d; destruct d; reflexivity.
Qed.

(** A zone label on a provisioner that configures no zones leaves the
    zones unconstrained. *)
Example zone_label_leaves_zones_open :
  Zones (WithOverrides (WithLabel samples.open ZoneLabelKey "us-west-2a") samples.plain)
  = None.
Proof. vm_compute. reflexivity. Qed.

End precedence.

(** * Further laws of the reconcile cycle *)

Module outcomes.

Import errors reallocation.

(** Two facts about the same fetch: they disagree, or name one provisioner. *)
Ltac same_fetch :=
  match goal with
  | H1 : Get ?k ?n ?w = inl _, H2 : Get ?k ?n ?w = inr _ |- _ =>
      rewrite H1 in H2; discriminate H2
  | H1 : Get ?k ?n ?w = inl ?p, H2 : Get ?k ?n ?w = inl ?q |- _ =>
      rewrite H1 in H2; injection H2 as <-
  end.

(** Two facts about the same call of a stage, or about the same TTL. *)
Ltac same_call :=
  match goal with
  | H1 : ?f ?u ?p ?w = (_, _), H2 : ?f ?u ?p ?w = (_, _) |- _ =>
      rewrite H1 in H2; simplify_eq
  | H1 : v1alpha3.TTLSecondsAfterEmpty ?s = _,
    H2 : v1alpha3.TTLSecondsAfterEmpty ?s = _ |- _ =>
      rewrite H1 in H2; simplify_eq
  end.

Section Outcomes.

Context {World : Type}.
Variable c : Controller World.
Variable req : reconcile.Request.
Variable w : World.

(** X10. A fetch error other than not-found is returned as it is with the zero
    result; the fetch is the only call made and the cluster is as it was. *)
Theorem Reconcile_fetch_error (err : error) :
  Get (KubeClient c) (reconcile.NamespacedName req) w = inr err ->
  IsNotFound err = false ->
  Reconcile c req w
  = ({| cluster := w; calls := [(StageFetch, Some err)] |},
     (reconcile.zero, Some err)).
Proof.
  intros HGet HNotFound. apply cycle.Returns_Reconcile.
  by apply ReturnsFetchError.
Qed.

(** X11. The result never sets the [Requeue] flag, and its [RequeueAfter] is
    either zero or five seconds. *)
Theorem Reconcile_result_shape :
  reconcile.Requeue (fst (snd (Reconcile c req w))) = false
  /\ (reconcile.RequeueAfter (fst (snd (Reconcile c req w))) = 0%Z
      \/ reconcile.RequeueAfter (fst (snd (Reconcile c req w)))
         = (5 * time.Second)%Z).
Proof.
  pose proof (cycle.Reconcile_Returns c req w) as R.
  destruct R; simpl; split; auto.
Qed.

(** X12. Whenever the provisioner is fetched, the terminate-failed-to-join stage
    is the second call of the cycle, made on the cluster as the cycle found
    it, whether or not either TTL is defined. *)
Theorem Reconcile_always_purges_failed_joins (p : v1alpha3.Provisioner) :
  Get (KubeClient c) (reconcile.NamespacedName req) w = inl p ->
  calls (fst (Reconcile c req w)) !! 1%nat
  = Some (StageTerminateFailedToJoin,
          snd (terminateFailedToJoin (CtlUtilization c) p w)).
Proof.
  intros HGet.
  pose proof (cycle.Reconcile_Returns c req w) as R.
  destruct R; same_fetch; simpl;
    repeat match goal with
           | H : terminateFailedToJoin _ _ _ = _ |- _ => rewrite H
           end; reflexivity.
Qed.

(** X13. The cluster a cycle leaves is the cluster it found with the recorded
    calls applied one after the other: what the stages before a failure
    did, and what the failing stage did, stays. *)
Theorem Reconcile_cluster_is_replay (p : v1alpha3.Provisioner) :
  Get (KubeClient c) (reconcile.NamespacedName req) w = inl p ->
  cluster (fst (Reconcile c req w))
  = replay (CtlUtilization c) p (map fst (calls (fst (Reconcile c req w)))) w.
Proof.
  intros HGet.
  pose proof (cycle.Reconcile_Returns c req w) as R.
  destruct R; same_fetch; unfold replay; simpl;
    repeat match goal with
           | H : _ = (_, _) |- _ => rewrite H; clear H; simpl
           end; reflexivity.
Qed.

(** X14. A nil error hides no failure of a lifecycle stage: if [Reconcile]
    returns nil, the only call that can have failed is a fetch that
    reported not-found. *)
Theorem Reconcile_nil_error_hides_only_not_found (s : Stage) (e : error) :
  snd (snd (Reconcile c req w)) = None ->
  (s, Some e) ∈ calls (fst (Reconcile c req w)) ->
  s = StageFetch /\ IsNotFound e = true.
Proof.
  pose proof (cycle.Reconcile_Returns c req w) as R.
  destruct R; simpl; intros Hnil Hin; try discriminate;
    repeat (apply elem_of_cons in Hin as [Hin|Hin]; [simplify_eq|]);
    try (by apply elem_of_nil in Hin).
  by split.
Qed.

(** X15. An error returned by [Reconcile] has the error of the last call as its
    cause: it is that error or wraps it, and it has the same status
    reason, so not-found and the like can still be told from it. *)
Theorem Reconcile_error_cause (err : error) :
  snd (snd (Reconcile c req w)) = Some err ->
  exists s e,
    last (calls (fst (Reconcile c req w))) = Some (s, Some e)
    /\ (err = e \/ Unwrap err = Some e)
    /\ ReasonForError err = ReasonForError e.
Proof.
  pose proof (cycle.Reconcile_Returns c req w) as R.
  destruct R; simpl; intros Herr; simplify_eq;
    eexists _, _; (split; [reflexivity|]); split; auto.
Qed.

(** X16. The occupancy stages run exactly when the provisioner is fetched, the
    terminate-failed-to-join stage succeeds and the empty TTL is defined:
    the mark stage is among the calls if and only if these three hold. *)
Theorem Reconcile_marks_iff :
  StageMarkUnderutilized ∈ map fst (calls (fst (Reconcile c req w)))
  <-> exists p ttl w1,
        Get (KubeClient c) (reconcile.NamespacedName req) w = inl p
        /\ terminateFailedToJoin (CtlUtilization c) p w = (w1, None)
        /\ v1alpha3.TTLSecondsAfterEmpty (v1alpha3.Spec p) = Some ttl.
Proof.
  pose proof (cycle.Reconcile_Returns c req w) as R.
  destruct R; simpl;
    (split; [intros Hin | intros (p' & ttl' & w1' & HG & HJ & HT)]);
    first
      [ solve [exfalso;
               repeat (apply elem_of_cons in Hin as [Hin|Hin]; [discriminate|]);
               by apply elem_of_nil in Hin]
      | solve [eauto 10]
      | solve [exfalso; same_fetch; repeat same_call]
      | solve [rewrite !elem_of_cons; auto] ].
Qed.

End Outcomes.

End outcomes.

(** * The further laws on the sample cluster *)

Module outcome_scenarios.

Import errors reallocation.
Import samples.

Lemma Reconcile_fetch_error_witness :
  IsNotFound utilization.unavailable = false
  /\ Reconcile controller request (clusterOf reclaiming false [])
     = ({| cluster := clusterOf reclaiming false [];
           calls := [(StageFetch, Some utilization.unavailable)] |},
        (reconcile.zero, Some utilization.unavailable)).
Proof.
  split; [reflexivity|].
  apply (outcomes.Reconcile_fetch_error controller request
           (clusterOf reclaiming false []) utilization.unavailable);
    vm_compute; reflexivity.
Defined.

Lemma Reconcile_always_purges_failed_joins_witness :
  v1alpha3.TTLSecondsAfterEmpty (v1alpha3.Spec expiring) = None
  /\ calls (fst (Reconcile controller request (clusterOf expiring true ["node-d"])))
       !! 1%nat
     = Some (StageTerminateFailedToJoin,
             snd (reallocation.terminateFailedToJoin (CtlUtilization controller)
                    expiring (clusterOf expiring true ["node-d"]))).
Proof.
  split; [reflexivity|].
  apply (outcomes.Reconcile_always_purges_failed_joins controller request
           (clusterOf expiring true ["node-d"]) expiring).
  vm_compute; reflexivity.
Defined.

Lemma Reconcile_cluster_is_replay_witness :
  map fst (calls (fst (Reconcile controller request
                         (clusterOf reclaiming true ["node-c"]))))
  = allStages
  /\ cluster (fst (Reconcile controller request
                     (clusterOf reclaiming true ["node-c"])))
     = replay (CtlUtilization controller) reclaiming
         (map fst (calls (fst (Reconcile controller request
                                 (clusterOf reclaiming true ["node-c"])))))
         (clusterOf reclaiming true ["node-c"]).
Proof.
  split; [vm_compute; reflexivity|].
  apply (outcomes.Reconcile_cluster_is_replay controller request
           (clusterOf reclaiming true ["node-c"]) reclaiming).
  vm_compute; reflexivity.
Defined.

Lemma Reconcile_nil_error_hides_only_not_found_witness :
  snd (snd (Reconcile controller request orphaned)) = None
  /\ StageFetch = StageFetch /\ IsNotFound notFound = true.
Proof.
  split; [vm_compute; reflexivity|].
  apply (outcomes.Reconcile_nil_error_hides_only_not_found controller request
           orphaned StageFetch notFound).
  - vm_compute; reflexivity.
  - vm_compute. constructor.
Defined.

Lemma Reconcile_error_cause_witness :
  snd (snd (Reconcile controller request (clusterOf reclaiming true ["node-c"])))
  = Some (Errorf "marking nodes terminable, " (cannotDelete "node-c"))
  /\ exists s e,
       last (calls (fst (Reconcile controller request
                           (clusterOf reclaiming true ["node-c"]))))
       = Some (s, Some e)
       /\ (Errorf "marking nodes terminable, " (cannotDelete "node-c") = e
           \/ Unwrap (Errorf "marking nodes terminable, " (cannotDelete "node-c"))
              = Some e)
       /\ ReasonForError (Errorf "marking nodes terminable, " (cannotDelete "node-c"))
          = ReasonForError e.
Proof.
  split; [vm_compute; reflexivity|].
  apply (outcomes.Reconcile_error_cause controller request
           (clusterOf reclaiming true ["node-c"])).
  vm_compute; reflexivity.
Defined.

(** With an empty TTL the mark stage runs; without one it does not. *)
Example marks_with_empty_ttl_only :
  StageMarkUnderutilized
    ∈ map fst (calls (fst (Reconcile controller request (clusterOf reclaiming true []))))
  /\ StageMarkUnderutilized
    ∉ map fst (calls (fst (Reconcile controller request (clusterOf expiring true [])))).
Proof.
  assert (Hfull : map fst (calls (fst (Reconcile controller request
                                       (clusterOf reclaiming true []))))
                  = allStages) by (vm_compute; reflexivity).
  assert (Hshort : map fst (calls (fst (Reconcile controller request
                                        (clusterOf expiring true []))))
                   = [StageFetch; StageTerminateFailedToJoin])
    by (vm_compute; reflexivity).
  rewrite Hfull, Hshort. split.
  - unfold allStages. rewrite !elem_of_cons. auto.
  - intros Hin.
    repeat (apply elem_of_cons in Hin as [Hin|Hin]; [discriminate|]).
    by apply elem_of_nil in Hin.
Qed.

End outcome_scenarios.
